(** * Cross-device cart: the checkout GraphQL client and the getXCart resolver

    A shallow embedding of
      - node/clients/checkout/index.ts  (CustomGraphQLError, throwOnGraphQLErrors,
        the CheckoutIO constructor, getOrderFormItems / getOrderForm / updateCart)
      - node/resolvers/getXCart.ts      (getXCart)
    together with the fragment of JavaScript they run on: plain data values,
    property reads, optional chaining, strict equality with a number,
    object literals with spreads, exceptions, settled promises and the calls
    made on injected clients. *)

From Stdlib Require Import String List Arith ZArith.
From Stdlib Require Import DecimalString.
From Stdlib Require Import PrimFloat.
From Stdlib Require Uint63.
Import ListNotations.

Local Open Scope string_scope.
Local Open Scope list_scope.

(* ===================================================================== *)
(** ** JavaScript values and the operations the two files use *)
(* ===================================================================== *)

Module JS.

(** Classes of the error objects that occur: [Error] itself, the engine's
    [TypeError], and the client's own [CustomGraphQLError extends Error]. *)
Inductive error_class : Type :=
  | ErrorClass
  | TypeErrorClass
  | CustomGraphQLErrorClass.

(** Plain data. A number is an IEEE 754 binary64, as in the language. Objects
    and error instances carry their own data properties in insertion order.
    Function-valued properties (methods) are outside this universe, and so is
    the non-standard [stack] of error instances. *)
#[warnings="-register-all"]
Inductive value : Type :=
  | VUndefined
  | VNull
  | VBool (b : bool)
  | VNum (x : PrimFloat.float)
  | VStr (s : string)
  | VArr (elems : list value)
  | VObj (props : list (string * value))
  | VError (cls : error_class) (props : list (string * value)).

(** A typed slot that may hold [undefined] or [null] at run time. *)
Inductive nullable (A : Type) : Type :=
  | Undefined
  | Null
  | Defined (a : A).
Arguments Undefined {A}.
Arguments Null {A}.
Arguments Defined {A} a.

Definition nullish (v : value) : bool :=
  match v with
  | VUndefined | VNull => true
  | _ => false
  end.

Definition number_of_nat (n : nat) : PrimFloat.float :=
  PrimFloat.of_uint63 (Uint63.of_Z (Z.of_nat n)).

(** The property key of array index [i]: its canonical decimal numeral. *)
Definition index_key (i : nat) : string :=
  NilZero.string_of_uint (Nat.to_uint i).

Fixpoint assoc {A : Type} (key : string) (props : list (string * A)) : option A :=
  match props with
  | [] => None
  | (k, v) :: rest => if String.eqb k key then Some v else assoc key rest
  end.

Fixpoint indexed {A : Type} (xs : list A) (i : nat) (key : string) : option A :=
  match xs with
  | [] => None
  | x :: rest => if String.eqb key (index_key i) then Some x else indexed rest (S i) key
  end.

Definition or_undefined (o : option value) : value :=
  match o with
  | Some v => v
  | None => VUndefined
  end.

Definition class_name (cls : error_class) : string :=
  match cls with
  | ErrorClass => "Error"
  | TypeErrorClass => "TypeError"
  | CustomGraphQLErrorClass => "Error"
  end.

(** [v.key] for a [v] that is neither [undefined] nor [null]: own data
    properties, the [length] and the indices of arrays and strings, and the
    two data properties error instances inherit ([name], and the empty
    [message] of the prototype). *)
Definition get_prop (v : value) (key : string) : value :=
  match v with
  | VObj props => or_undefined (assoc key props)
  | VError cls props =>
      match assoc key props with
      | Some x => x
      | None =>
          if String.eqb key "name" then VStr (class_name cls)
          else if String.eqb key "message" then VStr ""
          else VUndefined
      end
  | VArr elems =>
      if String.eqb key "length" then VNum (number_of_nat (List.length elems))
      else or_undefined (indexed elems 0 key)
  | VStr s =>
      if String.eqb key "length" then VNum (number_of_nat (String.length s))
      else or_undefined
             (option_map (fun c => VStr (String c EmptyString))
                         (indexed (list_ascii_of_string s) 0 key))
  | VUndefined | VNull | VBool _ | VNum _ => VUndefined
  end.

(** [v?.key] *)
Definition optional_member (v : value) (key : string) : value :=
  if nullish v then VUndefined else get_prop v key.

(** [v === n] for a number [n]: only a number can be strictly equal to a
    number, and numbers compare as IEEE 754 does (NaN equals nothing). *)
Definition strict_equals_number (v : value) (n : PrimFloat.float) : bool :=
  match v with
  | VNum x => PrimFloat.eqb x n
  | _ => false
  end.

(** *** Completions, observable events and the computation monad *)

(** How an evaluation ends, and equally how a promise settles: [Return a] is
    a normal return or a fulfilment with [a], [Throw e] an exception or a
    rejection with [e]. *)
Inductive completion (A : Type) : Type :=
  | Return (a : A)
  | Throw (e : value).
Arguments Return {A} a.
Arguments Throw {A} e.

(** What a run does to the outside world, in order. *)
Inductive event : Type :=
  | ConsoleLog (args : list value)
  | VBaseGetJSON (bucket path : string) (flag : bool)
  | GraphQLQuery (query : string) (variables : value) (metric : string)
  | GraphQLMutate (mutation : string) (variables : value) (metric : string).

Definition Comp (A : Type) : Type := (completion A * list event)%type.

Definition ret {A : Type} (a : A) : Comp A := (Return a, []).

Definition throw {A : Type} (e : value) : Comp A := (Throw e, []).

Definition emit (ev : event) : Comp unit := (Return tt, [ev]).

Definition bind {A B : Type} (m : Comp A) (k : A -> Comp B) : Comp B :=
  match m with
  | (Return a, t) => let (r, t') := k a in (r, t ++ t')
  | (Throw e, t) => (Throw e, t)
  end.

(** [try { body } catch (err) { handler err }] *)
Definition try_catch {A : Type} (body : Comp A) (handler : value -> Comp A) : Comp A :=
  match body with
  | (Return a, t) => (Return a, t)
  | (Throw e, t) => let (r, t') := handler e in (r, t ++ t')
  end.

(** [p.then(f)]: a rejection of [p] passes through, a fulfilment runs [f],
    and what [f] returns or throws settles the new promise. *)
Definition then_ {A B : Type} (p : Comp A) (f : A -> Comp B) : Comp B := bind p f.

(** [await p] inside an async function: the value of a fulfilled promise, or
    its rejection thrown at this point. *)
Definition await {A : Type} (p : Comp A) : Comp A := p.

Definition outcome {A : Type} (m : Comp A) : completion A := fst m.

Definition trace {A : Type} (m : Comp A) : list event := snd m.

Definition console_log (args : list value) : Comp unit := emit (ConsoleLog args).

(** *** Errors *)

Definition TypeError (message : string) : value :=
  VError TypeErrorClass [("message", VStr message)].

Definition is_TypeError (v : value) : bool :=
  match v with
  | VError TypeErrorClass _ => true
  | _ => false
  end.

Section Engine.

(** The text of the TypeError raised by a property read on [undefined] or
    [null] is the engine's own; it is given the base value and the key. *)
Variable cannot_read : value -> string -> string.

(** [v.key]: throws on [undefined] and [null]. *)
Definition member (v : value) (key : string) : Comp value :=
  if nullish v then throw (TypeError (cannot_read v key))
  else ret (get_prop v key).

End Engine.

(** *** Object literals *)

(** The index properties of a sequence, from index [i] on. *)
Fixpoint index_entries {A : Type} (f : A -> value) (xs : list A) (i : nat)
    : list (string * value) :=
  match xs with
  | [] => []
  | x :: rest => (index_key i, f x) :: index_entries f rest (S i)
  end.

(** What a spread [{...v}] copies: the own enumerable data properties of
    [v], none for [undefined], [null], a boolean or a number. The [length]
    of an array or a string is not enumerable, and neither is the [message]
    the [Error] constructor sets. The copy is exact for a plain object, for
    [undefined] and for [null], which is what the constructor's [options]
    and [options.headers] are declared to be; for a string it goes by the
    characters of this file's strings, and for an error instance it takes
    every own property but [message] to be enumerable. *)
Definition own_enumerable (v : value) : list (string * value) :=
  match v with
  | VObj props => props
  | VError _ props =>
      filter (fun kv => negb (String.eqb (fst kv) "message")) props
  | VArr elems => index_entries (fun x => x) elems 0
  | VStr s =>
      index_entries (fun c => VStr (String c EmptyString)) (list_ascii_of_string s) 0
  | VUndefined | VNull | VBool _ | VNum _ => []
  end.

(** A property definition [key: v] inside an object literal: the value of
    an existing key is replaced where it stands, a new key goes last. *)
Fixpoint set_prop (key : string) (v : value) (props : list (string * value))
    : list (string * value) :=
  match props with
  | [] => [(key, v)]
  | (k, x) :: rest =>
      if String.eqb k key then (k, v) :: rest
      else (k, x) :: set_prop key v rest
  end.

Module Notations.
Declare Scope js_scope.
Delimit Scope js_scope with js.
Notation "x <- m ;; k" := (bind m (fun x => k))
  (at level 61, m at next level, right associativity) : js_scope.
Notation "m ;; k" := (bind m (fun _ => k))
  (at level 61, right associativity) : js_scope.
End Notations.

End JS.

Import JS JS.Notations.
Local Open Scope js_scope.

(* ===================================================================== *)
(** ** node/clients/checkout/index.ts *)
(* ===================================================================== *)

Module Checkout.

(** [GraphQLResponse<T>] of the platform SDK: every field is optional. The
    payload [data] is dynamic ([VUndefined] when absent); an error entry is an
    opaque value. *)
Record GraphQLResponse : Type := mkGraphQLResponse {
  data : value;
  errors : nullable (list value);
  extensions : value
}.

(** The first argument of [graphql.query] and of [graphql.mutate], and the
    second argument of both. *)
Record QueryRequest : Type := { query : string; query_variables : value }.
Record MutateRequest : Type := { mutate : string; mutate_variables : value }.
Record RequestOptions : Type := { metric : string }.

(** The transport a [CheckoutIO] instance inherits from [AppGraphQLClient]
    as [this.graphql]: for each request, how the promise it returns settles. *)
Record GraphQLClient : Type := {
  graphql_query :
    QueryRequest -> RequestOptions -> completion (nullable GraphQLResponse);
  graphql_mutate :
    MutateRequest -> RequestOptions -> completion (nullable GraphQLResponse)
}.

Record CheckoutIO : Type := { graphql : GraphQLClient }.

(** [this.graphql.query(request, options)]: the call is observable, and the
    promise it returns settles as the transport decides. *)
Definition call_query (this : CheckoutIO) (request : QueryRequest)
    (options : RequestOptions) : Comp (nullable GraphQLResponse) :=
  (graphql_query (graphql this) request options,
   [GraphQLQuery (query request) (query_variables request) (metric options)]).

Definition call_mutate (this : CheckoutIO) (request : MutateRequest)
    (options : RequestOptions) : Comp (nullable GraphQLResponse) :=
  (graphql_mutate (graphql this) request options,
   [GraphQLMutate (mutate request) (mutate_variables request) (metric options)]).

(** [new CustomGraphQLError(message, graphQLErrors)]: the [Error] constructor
    sets [message], the subclass constructor sets [graphQLErrors]. *)
Definition CustomGraphQLError (message : string) (graphQLErrors : list value) : value :=
  VError CustomGraphQLErrorClass
    [("message", VStr message); ("graphQLErrors", VArr graphQLErrors)].

(** The closure [throwOnGraphQLErrors] returns. On the declared type of
    [response], [response && response.errors] holds when neither is
    [undefined] or [null] (objects and arrays are truthy), and
    [response.errors.length > 0] compares the length of that array. *)
Definition maybeGraphQLResponse (message : string)
    (response : nullable GraphQLResponse) : Comp (nullable GraphQLResponse) :=
  match response with
  | Defined r =>
      match errors r with
      | Defined errs =>
          if (0 <? List.length errs)%nat
          then throw (CustomGraphQLError message errs)
          else ret response
      | Undefined | Null => ret response
      end
  | Undefined | Null => ret response
  end.

Definition throwOnGraphQLErrors (message : string)
    : nullable GraphQLResponse -> Comp (nullable GraphQLResponse) :=
  maybeGraphQLResponse message.

(** The arguments of a call of the base class constructor
    [AppGraphQLClient(app, context, options)]. *)
Record SuperCall : Type := {
  super_app : string;
  super_context : value;
  super_options : value
}.

(** [constructor(context, options?)]: all it does is the [super(...)] call,
    with [{...options, headers: {...options?.headers}}] as options. An
    omitted [options] is [VUndefined]. *)
Definition CheckoutIO_constructor (context : value) (options : value) : SuperCall :=
  {| super_app := "vtex.checkout-graphql@0.x";
     super_context := context;
     super_options :=
       VObj (set_prop "headers"
               (VObj (own_enumerable (optional_member options "headers")))
               (own_enumerable options)) |}.

Section Client.

(** The engine's wording of a failed property read. *)
Variable cannot_read : value -> string -> string.

(** The three documents imported from [./queries]. *)
Variable GET_ORDERFORM_ITEMS_QUERY : string.
Variable GET_ORDERFORM_QUERY : string.
Variable UPDATE_CART_MUTATION : string.

(** [query.data]; the non-null assertion [!] that follows it in the source
    is erased by the compiler. *)
Definition response_data (query : nullable GraphQLResponse) : Comp value :=
  match query with
  | Defined r => ret (data r)
  | Undefined => throw (TypeError (cannot_read VUndefined "data"))
  | Null => throw (TypeError (cannot_read VNull "data"))
  end.

Definition getOrderFormItems (this : CheckoutIO) (orderFormId : string) : Comp value :=
  partialItems <-
    await
      (then_
         (then_
            (call_query this
               {| query := GET_ORDERFORM_ITEMS_QUERY;
                  query_variables := VObj [("orderFormId", VStr orderFormId)] |}
               {| metric := "checkout-orderform" |})
            (throwOnGraphQLErrors
               "Error getting items data from vtex.checkout-graphql"))
         (fun query =>
            d <- response_data query ;;
            orderForm <- member cannot_read d "orderForm" ;;
            member cannot_read orderForm "items")) ;;
  ret partialItems.

Definition getOrderForm (this : CheckoutIO) (orderFormId : string) : Comp value :=
  partialOrderForm <-
    await
      (then_
         (then_
            (call_query this
               {| query := GET_ORDERFORM_QUERY;
                  query_variables := VObj [("orderFormId", VStr orderFormId)] |}
               {| metric := "checkout-orderform" |})
            (throwOnGraphQLErrors "Error getting data from vtex.checkout-graphql"))
         (fun query =>
            d <- response_data query ;;
            member cannot_read d "orderForm")) ;;
  ret partialOrderForm.

Definition updateCart (this : CheckoutIO) (orderFormId : string)
    (items : list value) : Comp value :=
  partialOrderForm <-
    await
      (then_
         (then_
            (call_mutate this
               {| mutate := UPDATE_CART_MUTATION;
                  mutate_variables :=
                    VObj [("orderFormId", VStr orderFormId); ("items", VArr items)] |}
               {| metric := "checkout-update-items" |})
            (throwOnGraphQLErrors "Error updating items with vtex.checkout-graphql"))
         (fun query =>
            d <- response_data query ;;
            member cannot_read d "orderForm")) ;;
  ret partialOrderForm.

End Client.

End Checkout.

(* ===================================================================== *)
(** ** node/resolvers/getXCart.ts *)
(* ===================================================================== *)

Module Resolvers.

(** [ctx.clients.vbase]: for each call of [getJSON], how its promise settles. *)
Record VBase : Type := {
  getJSON : string -> string -> bool -> completion value
}.
Record Clients : Type := { vbase : VBase }.
Record Context : Type := { clients : Clients }.

Definition call_getJSON (ctx : Context) (bucket path : string) (flag : bool) : Comp value :=
  (getJSON (vbase (clients ctx)) bucket path flag, [VBaseGetJSON bucket path flag]).

(** [(err as any)?.response?.status] *)
Definition embedded_status (err : value) : value :=
  optional_member (optional_member err "response") "status".

Definition getXCart (_root : value) (userId : string) (ctx : Context) : Comp value :=
  try_catch
    (console_log [VStr "-----------------NODE DEBUG-----------------------"] ;;
     orderformId <- await (call_getJSON ctx "vtex.cross-device-cart" userId true) ;;
     console_log [orderformId] ;;
     ret orderformId)
    (fun err =>
       console_log [VStr "----------------------------------------"; err] ;;
       let status := embedded_status err in
       if strict_equals_number status 404%float then ret VNull
       else throw err).

End Resolvers.

(* ===================================================================== *)
(** ** Scenario values *)
(* ===================================================================== *)

Module Scenarios.
Import Checkout Resolvers.

(** The wording V8 gives a failed property read. *)
Definition v8_cannot_read (base : value) (key : string) : string :=
  "Cannot read properties of "
    ++ (match base with VNull => "null" | _ => "undefined" end)
    ++ " (reading '" ++ key ++ "')".

(** A transport whose every promise settles the same way. *)
Definition transport (settles : completion (nullable GraphQLResponse)) : CheckoutIO :=
  {| graphql := {| graphql_query := fun _ _ => settles;
                   graphql_mutate := fun _ _ => settles |} |}.

(** A key-value store whose every lookup settles the same way. *)
Definition store (settles : completion value) : Context :=
  {| clients := {| vbase := {| getJSON := fun _ _ _ => settles |} |} |}.

(** [{data: {orderForm: {items: [{id: "sku1"}]}}, errors: []}] *)
Definition items_response : GraphQLResponse :=
  {| data := VObj [("orderForm", VObj [("items", VArr [VObj [("id", VStr "sku1")]])])];
     errors := Defined [];
     extensions := VUndefined |}.

(** [{data: null, errors: [{message: "out of stock"}]}] *)
Definition out_of_stock_response : GraphQLResponse :=
  {| data := VNull;
     errors := Defined [VObj [("message", VStr "out of stock")]];
     extensions := VUndefined |}.

(** Errors next to populated data: a partial success. *)
Definition partial_response : GraphQLResponse :=
  {| data := data items_response;
     errors := errors out_of_stock_response;
     extensions := VUndefined |}.

(** [{}]: neither errors nor data. *)
Definition empty_response : GraphQLResponse :=
  {| data := VUndefined; errors := Undefined; extensions := VUndefined |}.

(** [{response: {status: n}}] *)
Definition status_error (n : float) : value :=
  VObj [("response", VObj [("status", VNum n)])].

(** [[{id: "sku1", quantity: 2}]] *)
Definition sku1_twice : list value :=
  [VObj [("id", VStr "sku1"); ("quantity", VNum 2%float)]].

(** [{orderformId: "of-1"}] *)
Definition stored_cart : value := VObj [("orderformId", VStr "of-1")].

(** Stand-ins for the three documents of [./queries]. *)
Definition items_query : string := "query getOrderFormItems".
Definition orderform_query : string := "query getOrderForm".
Definition update_mutation : string := "mutation updateCart".

(** [{timeout: 800, headers: {"x-vtex-use-https": "true"}}] *)
Definition custom_options : value :=
  VObj [("timeout", VNum 800%float);
        ("headers", VObj [("x-vtex-use-https", VStr "true")])].

(** A response whose [data] has no [orderForm]: [{data: {}}]. *)
Definition formless_response : GraphQLResponse :=
  {| data := VObj []; errors := Undefined; extensions := VUndefined |}.

End Scenarios.

(* ===================================================================== *)
(** ** Properties of the response normalizer *)
(* ===================================================================== *)

Import Checkout Resolvers.

(** The error list a response carries: empty when the field is absent. *)
Definition error_list (r : GraphQLResponse) : list value :=
  match errors r with
  | Defined errs => errs
  | Undefined | Null => []
  end.

(** The own data property [key] of an object or of an error instance; no
    other value has an own property under a key that is neither an index
    nor [length]. *)
Definition own_property (v : value) (key : string) : option value :=
  match v with
  | VObj props | VError _ props => assoc key props
  | _ => None
  end.

Lemma bind_ret {A B : Type} (a : A) (k : A -> Comp B) : bind (ret a) k = k a.
Proof. unfold bind, ret. destruct (k a) as [r t]. reflexivity. Qed.

Lemma bind_throw {A B : Type} (e : value) (k : A -> Comp B) : bind (throw e) k = throw e.
Proof. reflexivity. Qed.

Lemma bind_ret_r {A : Type} (m : Comp A) : bind m ret = m.
Proof.
  destruct m as [[a | e] t]; simpl; [rewrite app_nil_r |]; reflexivity.
Qed.

Lemma nonempty_length {A : Type} (xs : list A) : xs <> [] -> (0 <? List.length xs)%nat = true.
Proof. destruct xs; [congruence | reflexivity]. Qed.

Lemma normalizer_throws (message : string) (r : GraphQLResponse) (errs : list value) :
  errors r = Defined errs -> errs <> [] ->
  throwOnGraphQLErrors message (Defined r) = throw (CustomGraphQLError message errs).
Proof.
  intros Herrs Hne. unfold throwOnGraphQLErrors, maybeGraphQLResponse.
  rewrite Herrs, (nonempty_length errs Hne). reflexivity.
Qed.

Lemma normalizer_passes (message : string) (r : GraphQLResponse) :
  error_list r = [] ->
  throwOnGraphQLErrors message (Defined r) = ret (Defined r).
Proof.
  unfold error_list, throwOnGraphQLErrors, maybeGraphQLResponse.
  destruct (errors r) as [| | errs]; intros H; try reflexivity.
  subst errs. reflexivity.
Qed.

Lemma normalizer_silent (message : string) (response : nullable GraphQLResponse) :
  trace (throwOnGraphQLErrors message response) = [].
Proof.
  unfold throwOnGraphQLErrors, maybeGraphQLResponse.
  destruct response as [| | r]; try reflexivity.
  destruct (errors r) as [| | errs]; try reflexivity.
  destruct (0 <? List.length errs)%nat; reflexivity.
Qed.

(** C1: a response whose error list is non-empty makes the normalizer throw,
    without any other effect, a CustomGraphQLError whose message is the
    context message and whose graphQLErrors is that error list; nothing is
    asked of the response's data. *)
Theorem throwOnGraphQLErrors_errors_fail
    (message : string) (r : GraphQLResponse) (errs : list value) :
  errors r = Defined errs -> errs <> [] ->
  throwOnGraphQLErrors message (Defined r)
    = (Throw (CustomGraphQLError message errs), [])
  /\ get_prop (CustomGraphQLError message errs) "message" = VStr message
  /\ get_prop (CustomGraphQLError message errs) "graphQLErrors" = VArr errs.
Proof.
  intros Herrs Hne. split; [| split]; try reflexivity.
  now rewrite (normalizer_throws message r errs Herrs Hne).
Qed.

(** C2: a response whose error list is empty or absent is returned as it
    is, the very same value, with no other effect. *)
Theorem throwOnGraphQLErrors_identity_without_errors
    (message : string) (r : GraphQLResponse) :
  error_list r = [] ->
  throwOnGraphQLErrors message (Defined r) = (Return (Defined r), []).
Proof.
  intros H. now rewrite (normalizer_passes message r H).
Qed.

(** C10: the normalizer throws exactly when the response is present and its
    error list is present and non-empty. An [undefined] or [null] response
    is returned as it is; the failure comes only from the projection that
    follows, as the TypeError of reading [data] off it. *)
Theorem throwOnGraphQLErrors_throws_iff
    (message : string) (response : nullable GraphQLResponse) :
  ((exists e, outcome (throwOnGraphQLErrors message response) = Throw e)
   <-> (exists r errs,
          response = Defined r /\ errors r = Defined errs /\ errs <> []))
  /\ (response = Undefined \/ response = Null ->
      throwOnGraphQLErrors message response = (Return response, []))
  /\ (response = Undefined \/ response = Null ->
      forall cannot_read,
      exists e,
        then_ (throwOnGraphQLErrors message response) (response_data cannot_read)
          = (Throw e, [])
        /\ is_TypeError e = true).
Proof.
  split; [split | split].
  - intros [e He]. destruct response as [| | r]; try discriminate He.
    unfold throwOnGraphQLErrors, maybeGraphQLResponse in He.
    destruct (errors r) as [| | errs] eqn:Herrs; try discriminate He.
    destruct errs as [| x errs]; [discriminate He |].
    exists r, (x :: errs). repeat split; congruence.
  - intros (r & errs & -> & Herrs & Hne).
    rewrite (normalizer_throws message r errs Herrs Hne). now eexists.
  - intros [-> | ->]; reflexivity.
  - intros [-> | ->] cannot_read; eexists; split; reflexivity.
Qed.

(* ===================================================================== *)
(** ** Properties of the call wrappers *)
(* ===================================================================== *)

(** A normalized promise: the transport's promise followed by the
    normalizer. A rejection of the transport passes through; a fulfilment
    with errors becomes the classified error. *)
Lemma normalized_rejects {B : Type}
    (settles : completion (nullable GraphQLResponse)) (call : list event)
    (message : string) (r : GraphQLResponse) (errs : list value)
    (project : nullable GraphQLResponse -> Comp B) :
  settles = Return (Defined r) -> errors r = Defined errs -> errs <> [] ->
  bind (await (then_ (then_ (settles, call) (throwOnGraphQLErrors message)) project)) ret
  = (Throw (CustomGraphQLError message errs), call).
Proof.
  intros -> Herrs Hne. unfold await, then_.
  rewrite bind_ret_r. unfold bind at 2.
  rewrite (normalizer_throws message r errs Herrs Hne). simpl.
  now rewrite app_nil_r.
Qed.

Lemma normalized_projects {B : Type}
    (settles : completion (nullable GraphQLResponse)) (call : list event)
    (message : string) (r : GraphQLResponse)
    (project : nullable GraphQLResponse -> Comp B) :
  settles = Return (Defined r) -> error_list r = [] ->
  bind (await (then_ (then_ (settles, call) (throwOnGraphQLErrors message)) project)) ret
  = (outcome (project (Defined r)), call ++ trace (project (Defined r))).
Proof.
  intros -> Hnone. unfold await, then_.
  rewrite bind_ret_r. unfold bind at 2.
  rewrite (normalizer_passes message r Hnone). simpl.
  destruct (project (Defined r)) as [[b | e] t]; simpl; now rewrite app_nil_r.
Qed.

(** C5: when the transport fulfils the mutation with a response that
    carries errors, updateCart rejects, after that one call, with a
    CustomGraphQLError; the [message] read off that error is the fixed text
    of the update operation, and its [graphQLErrors] is the array of exactly
    those errors. *)
Theorem updateCart_rejects_with_classified_error
    (cannot_read : value -> string -> string) (UPDATE_CART_MUTATION : string)
    (this : CheckoutIO) (orderFormId : string) (items : list value)
    (r : GraphQLResponse) (errs : list value) :
  graphql_mutate (graphql this)
    {| mutate := UPDATE_CART_MUTATION;
       mutate_variables :=
         VObj [("orderFormId", VStr orderFormId); ("items", VArr items)] |}
    {| metric := "checkout-update-items" |} = Return (Defined r) ->
  errors r = Defined errs -> errs <> [] ->
  updateCart cannot_read UPDATE_CART_MUTATION this orderFormId items
  = (Throw (CustomGraphQLError "Error updating items with vtex.checkout-graphql" errs),
     [GraphQLMutate UPDATE_CART_MUTATION
        (VObj [("orderFormId", VStr orderFormId); ("items", VArr items)])
        "checkout-update-items"])
  /\ get_prop
       (CustomGraphQLError "Error updating items with vtex.checkout-graphql" errs)
       "message"
     = VStr "Error updating items with vtex.checkout-graphql"
  /\ get_prop
       (CustomGraphQLError "Error updating items with vtex.checkout-graphql" errs)
       "graphQLErrors"
     = VArr errs.
Proof.
  intros Hcall Herrs Hne. split; [| split; reflexivity].
  unfold updateCart, call_mutate.
  now rewrite (normalized_rejects _ _ _ r errs _ Hcall Herrs Hne).
Qed.

(** C6: when the transport fulfils the items query with a response that has
    an empty error list and a populated [data.orderForm], getOrderFormItems
    resolves to that response's [data.orderForm.items]. *)
Theorem getOrderFormItems_projects_items
    (cannot_read : value -> string -> string) (GET_ORDERFORM_ITEMS_QUERY : string)
    (this : CheckoutIO) (orderFormId : string) (r : GraphQLResponse) :
  graphql_query (graphql this)
    {| query := GET_ORDERFORM_ITEMS_QUERY;
       query_variables := VObj [("orderFormId", VStr orderFormId)] |}
    {| metric := "checkout-orderform" |} = Return (Defined r) ->
  errors r = Defined [] ->
  nullish (data r) = false ->
  nullish (get_prop (data r) "orderForm") = false ->
  getOrderFormItems cannot_read GET_ORDERFORM_ITEMS_QUERY this orderFormId
  = (Return (get_prop (get_prop (data r) "orderForm") "items"),
     [GraphQLQuery GET_ORDERFORM_ITEMS_QUERY
        (VObj [("orderFormId", VStr orderFormId)]) "checkout-orderform"]).
Proof.
  intros Hcall Herrs Hdata Hform. unfold getOrderFormItems, call_query.
  rewrite (normalized_projects _ _ _ r _ Hcall)
    by (unfold error_list; now rewrite Herrs).
  unfold response_data, member. rewrite bind_ret, Hdata, bind_ret, Hform.
  reflexivity.
Qed.

(** What a wrapper does once the normalizer let a response through whose
    [data] is [undefined] or [null]: the read of [orderForm] throws. *)
Lemma projection_fails_without_data
    (cannot_read : value -> string -> string) (r : GraphQLResponse)
    (rest : value -> Comp value) :
  nullish (data r) = true ->
  (d <- response_data cannot_read (Defined r) ;;
   orderForm <- member cannot_read d "orderForm" ;;
   rest orderForm)
  = (Throw (TypeError (cannot_read (data r) "orderForm")), []).
Proof.
  intros Hdata. unfold response_data, member.
  rewrite bind_ret, Hdata. reflexivity.
Qed.

(** C7: when the transport fulfils a request with a response that has no
    errors and whose [data] is absent ([undefined], or [null]), each of the
    three wrappers rejects with the TypeError of reading [orderForm] off it;
    none resolves, to [null] or to anything else. *)
Theorem wrappers_fail_on_missing_data
    (cannot_read : value -> string -> string)
    (GET_ORDERFORM_ITEMS_QUERY GET_ORDERFORM_QUERY UPDATE_CART_MUTATION : string)
    (this : CheckoutIO) (orderFormId : string) (items : list value)
    (r : GraphQLResponse) :
  error_list r = [] ->
  nullish (data r) = true ->
  is_TypeError (TypeError (cannot_read (data r) "orderForm")) = true
  /\ (graphql_query (graphql this)
        {| query := GET_ORDERFORM_ITEMS_QUERY;
           query_variables := VObj [("orderFormId", VStr orderFormId)] |}
        {| metric := "checkout-orderform" |} = Return (Defined r) ->
      getOrderFormItems cannot_read GET_ORDERFORM_ITEMS_QUERY this orderFormId
      = (Throw (TypeError (cannot_read (data r) "orderForm")),
         [GraphQLQuery GET_ORDERFORM_ITEMS_QUERY
            (VObj [("orderFormId", VStr orderFormId)]) "checkout-orderform"]))
  /\ (graphql_query (graphql this)
        {| query := GET_ORDERFORM_QUERY;
           query_variables := VObj [("orderFormId", VStr orderFormId)] |}
        {| metric := "checkout-orderform" |} = Return (Defined r) ->
      getOrderForm cannot_read GET_ORDERFORM_QUERY this orderFormId
      = (Throw (TypeError (cannot_read (data r) "orderForm")),
         [GraphQLQuery GET_ORDERFORM_QUERY
            (VObj [("orderFormId", VStr orderFormId)]) "checkout-orderform"]))
  /\ (graphql_mutate (graphql this)
        {| mutate := UPDATE_CART_MUTATION;
           mutate_variables :=
             VObj [("orderFormId", VStr orderFormId); ("items", VArr items)] |}
        {| metric := "checkout-update-items" |} = Return (Defined r) ->
      updateCart cannot_read UPDATE_CART_MUTATION this orderFormId items
      = (Throw (TypeError (cannot_read (data r) "orderForm")),
         [GraphQLMutate UPDATE_CART_MUTATION
            (VObj [("orderFormId", VStr orderFormId); ("items", VArr items)])
            "checkout-update-items"])).
Proof.
  intros Hnone Hdata. split; [reflexivity |].
  pose proof (projection_fails_without_data cannot_read r) as Hproj.
  split; [| split]; intros Hcall.
  - unfold getOrderFormItems, call_query.
    rewrite (normalized_projects _ _ _ r _ Hcall Hnone).
    now rewrite (Hproj (fun orderForm => member cannot_read orderForm "items") Hdata).
  - unfold getOrderForm, call_query.
    rewrite (normalized_projects _ _ _ r _ Hcall Hnone).
    unfold response_data, member. rewrite bind_ret, Hdata. reflexivity.
  - unfold updateCart, call_mutate.
    rewrite (normalized_projects _ _ _ r _ Hcall Hnone).
    unfold response_data, member. rewrite bind_ret, Hdata. reflexivity.
Qed.

(* ===================================================================== *)
(** ** Properties of the store lookup *)
(* ===================================================================== *)

(** The run of getXCart, by how the lookup settles. *)
Lemma getXCart_run (root : value) (userId : string) (ctx : Context) :
  getXCart root userId ctx
  = match getJSON (vbase (clients ctx)) "vtex.cross-device-cart" userId true with
    | Return v =>
        (Return v,
         [ConsoleLog [VStr "-----------------NODE DEBUG-----------------------"];
          VBaseGetJSON "vtex.cross-device-cart" userId true;
          ConsoleLog [v]])
    | Throw err =>
        (if strict_equals_number (embedded_status err) 404%float
         then Return VNull else Throw err,
         [ConsoleLog [VStr "-----------------NODE DEBUG-----------------------"];
          VBaseGetJSON "vtex.cross-device-cart" userId true;
          ConsoleLog [VStr "----------------------------------------"; err]])
    end.
Proof.
  unfold getXCart, call_getJSON, await, console_log, emit.
  destruct (getJSON _ _ _ _) as [v | err]; simpl; [reflexivity |].
  destruct (strict_equals_number (embedded_status err) 404%float); reflexivity.
Qed.

(** A failure with no embedded status is not a 404. *)
Lemma no_status_is_not_404 (err : value) :
  embedded_status err = VUndefined ->
  strict_equals_number (embedded_status err) 404%float = false.
Proof. intros ->. reflexivity. Qed.

(** C3: when the lookup rejects with an error whose [response.status] is
    strictly equal to 404, getXCart resolves to [null]; nothing is thrown. *)
Theorem getXCart_not_found_resolves_null
    (root : value) (userId : string) (ctx : Context) (err : value) :
  getJSON (vbase (clients ctx)) "vtex.cross-device-cart" userId true = Throw err ->
  strict_equals_number (embedded_status err) 404%float = true ->
  getXCart root userId ctx
  = (Return VNull,
     [ConsoleLog [VStr "-----------------NODE DEBUG-----------------------"];
      VBaseGetJSON "vtex.cross-device-cart" userId true;
      ConsoleLog [VStr "----------------------------------------"; err]]).
Proof.
  intros Hcall Hstatus. now rewrite getXCart_run, Hcall, Hstatus.
Qed.

(** C4: when the lookup rejects with an error whose embedded status is not
    strictly equal to 404, or that has no embedded status, getXCart rejects
    with that same error value, after the one lookup and the two logs. *)
Theorem getXCart_other_failure_rethrown
    (root : value) (userId : string) (ctx : Context) (err : value) :
  getJSON (vbase (clients ctx)) "vtex.cross-device-cart" userId true = Throw err ->
  embedded_status err = VUndefined
  \/ strict_equals_number (embedded_status err) 404%float = false ->
  getXCart root userId ctx
  = (Throw err,
     [ConsoleLog [VStr "-----------------NODE DEBUG-----------------------"];
      VBaseGetJSON "vtex.cross-device-cart" userId true;
      ConsoleLog [VStr "----------------------------------------"; err]]).
Proof.
  intros Hcall Hstatus.
  assert (strict_equals_number (embedded_status err) 404%float = false) as Hne
    by (destruct Hstatus; auto using no_status_is_not_404).
  now rewrite getXCart_run, Hcall, Hne.
Qed.

(** C8: getXCart makes one lookup, with the bucket "vtex.cross-device-cart",
    the given userId as key and [true] as third argument; when it fulfils,
    getXCart resolves to the very value it delivered. *)
Theorem getXCart_success_passthrough
    (root : value) (userId : string) (ctx : Context) (v : value) :
  getJSON (vbase (clients ctx)) "vtex.cross-device-cart" userId true = Return v ->
  getXCart root userId ctx
  = (Return v,
     [ConsoleLog [VStr "-----------------NODE DEBUG-----------------------"];
      VBaseGetJSON "vtex.cross-device-cart" userId true;
      ConsoleLog [v]]).
Proof.
  intros Hcall. now rewrite getXCart_run, Hcall.
Qed.

(* ===================================================================== *)
(** ** The properties at the scenarios *)
(* ===================================================================== *)

Import Scenarios.

Lemma throwOnGraphQLErrors_errors_fail_witness :
  throwOnGraphQLErrors "Error getting data from vtex.checkout-graphql"
    (Defined partial_response)
    = (Throw (CustomGraphQLError "Error getting data from vtex.checkout-graphql"
                [VObj [("message", VStr "out of stock")]]), [])
  /\ get_prop (CustomGraphQLError "Error getting data from vtex.checkout-graphql"
                 [VObj [("message", VStr "out of stock")]]) "message"
     = VStr "Error getting data from vtex.checkout-graphql"
  /\ get_prop (CustomGraphQLError "Error getting data from vtex.checkout-graphql"
                 [VObj [("message", VStr "out of stock")]]) "graphQLErrors"
     = VArr [VObj [("message", VStr "out of stock")]].
Proof.
  apply (throwOnGraphQLErrors_errors_fail _ partial_response);
    [reflexivity | discriminate].
Defined.

Lemma throwOnGraphQLErrors_identity_without_errors_witness :
  throwOnGraphQLErrors "Error getting items data from vtex.checkout-graphql"
    (Defined items_response)
  = (Return (Defined items_response), []).
Proof.
  apply (throwOnGraphQLErrors_identity_without_errors _ items_response).
  reflexivity.
Defined.

Lemma throwOnGraphQLErrors_throws_iff_witness :
  throwOnGraphQLErrors "context" Null = (Return Null, []).
Proof.
  apply (proj1 (proj2 (throwOnGraphQLErrors_throws_iff "context" Null))).
  right. reflexivity.
Defined.

Lemma updateCart_rejects_with_classified_error_witness :
  updateCart v8_cannot_read update_mutation
    (transport (Return (Defined out_of_stock_response))) "of-1" sku1_twice
  = (Throw (CustomGraphQLError "Error updating items with vtex.checkout-graphql"
              [VObj [("message", VStr "out of stock")]]),
     [GraphQLMutate update_mutation
        (VObj [("orderFormId", VStr "of-1"); ("items", VArr sku1_twice)])
        "checkout-update-items"])
  /\ get_prop
       (CustomGraphQLError "Error updating items with vtex.checkout-graphql"
          [VObj [("message", VStr "out of stock")]])
       "message"
     = VStr "Error updating items with vtex.checkout-graphql"
  /\ get_prop
       (CustomGraphQLError "Error updating items with vtex.checkout-graphql"
          [VObj [("message", VStr "out of stock")]])
       "graphQLErrors"
     = VArr [VObj [("message", VStr "out of stock")]].
Proof.
  apply (updateCart_rejects_with_classified_error v8_cannot_read update_mutation
           (transport (Return (Defined out_of_stock_response))) "of-1" sku1_twice
           out_of_stock_response);
    [reflexivity | reflexivity | discriminate].
Defined.

Lemma getOrderFormItems_projects_items_witness :
  getOrderFormItems v8_cannot_read items_query
    (transport (Return (Defined items_response))) "of-1"
  = (Return (VArr [VObj [("id", VStr "sku1")]]),
     [GraphQLQuery items_query (VObj [("orderFormId", VStr "of-1")])
        "checkout-orderform"]).
Proof.
  apply (getOrderFormItems_projects_items v8_cannot_read items_query
           (transport (Return (Defined items_response))) "of-1" items_response);
    reflexivity.
Defined.

Lemma wrappers_fail_on_missing_data_witness :
  outcome (getOrderFormItems v8_cannot_read items_query
             (transport (Return (Defined empty_response))) "of-1")
  = Throw (TypeError "Cannot read properties of undefined (reading 'orderForm')")
  /\ outcome (getOrderForm v8_cannot_read orderform_query
                (transport (Return (Defined empty_response))) "of-1")
     = Throw (TypeError "Cannot read properties of undefined (reading 'orderForm')")
  /\ outcome (updateCart v8_cannot_read update_mutation
                (transport (Return (Defined empty_response))) "of-1" sku1_twice)
     = Throw (TypeError "Cannot read properties of undefined (reading 'orderForm')").
Proof.
  destruct (wrappers_fail_on_missing_data v8_cannot_read
              items_query orderform_query update_mutation
              (transport (Return (Defined empty_response))) "of-1" sku1_twice
              empty_response eq_refl eq_refl)
    as (_ & Hitems & Hform & Hupdate).
  rewrite Hitems, Hform, Hupdate by reflexivity.
  repeat split.
Defined.

Lemma getXCart_not_found_resolves_null_witness :
  getXCart VUndefined "user-42" (store (Throw (status_error 404)))
  = (Return VNull,
     [ConsoleLog [VStr "-----------------NODE DEBUG-----------------------"];
      VBaseGetJSON "vtex.cross-device-cart" "user-42" true;
      ConsoleLog [VStr "----------------------------------------"; status_error 404]]).
Proof.
  apply (getXCart_not_found_resolves_null VUndefined "user-42"
           (store (Throw (status_error 404))) (status_error 404));
    reflexivity.
Defined.

Lemma getXCart_other_failure_rethrown_witness :
  getXCart VUndefined "user-42" (store (Throw (status_error 500)))
  = (Throw (status_error 500),
     [ConsoleLog [VStr "-----------------NODE DEBUG-----------------------"];
      VBaseGetJSON "vtex.cross-device-cart" "user-42" true;
      ConsoleLog [VStr "----------------------------------------"; status_error 500]]).
Proof.
  apply (getXCart_other_failure_rethrown VUndefined "user-42"
           (store (Throw (status_error 500))) (status_error 500));
    [reflexivity | right; reflexivity].
Defined.

Lemma getXCart_success_passthrough_witness :
  getXCart VUndefined "user-42" (store (Return stored_cart))
  = (Return stored_cart,
     [ConsoleLog [VStr "-----------------NODE DEBUG-----------------------"];
      VBaseGetJSON "vtex.cross-device-cart" "user-42" true;
      ConsoleLog [stored_cart]]).
Proof.
  apply (getXCart_success_passthrough VUndefined "user-42"
           (store (Return stored_cart)) stored_cart).
  reflexivity.
Defined.

(** Failures that carry no status at all: a bare string, [undefined], an
    error object without [response], and a status that is the string "404". *)
Example getXCart_rethrows_statusless :
  outcome (getXCart VUndefined "user-42" (store (Throw (VStr "boom"))))
    = Throw (VStr "boom")
  /\ outcome (getXCart VUndefined "user-42" (store (Throw VUndefined)))
     = Throw VUndefined
  /\ outcome (getXCart VUndefined "user-42"
                (store (Throw (VError ErrorClass [("message", VStr "timeout")]))))
     = Throw (VError ErrorClass [("message", VStr "timeout")])
  /\ outcome (getXCart VUndefined "user-42"
                (store (Throw (VObj [("response", VObj [("status", VStr "404")])]))))
     = Throw (VObj [("response", VObj [("status", VStr "404")])]).
Proof. repeat split. Qed.


(* ===================================================================== *)
(** ** The wrappers, outcome by outcome *)
(* ===================================================================== *)

Lemma trace_bind {A B : Type} (m : Comp A) (k : A -> Comp B) :
  trace (bind m k)
  = match outcome m with
    | Return a => trace m ++ trace (k a)
    | Throw _ => trace m
    end.
Proof.
  destruct m as [[a | e] t]; simpl; [destruct (k a) |]; reflexivity.
Qed.

Lemma outcome_bind {A B : Type} (m : Comp A) (k : A -> Comp B) :
  outcome (bind m k)
  = match outcome m with
    | Return a => outcome (k a)
    | Throw e => Throw e
    end.
Proof.
  destruct m as [[a | e] t]; simpl; [destruct (k a) |]; reflexivity.
Qed.

Lemma member_silent (cannot_read : value -> string -> string) (v : value) (key : string) :
  trace (member cannot_read v key) = [].
Proof. unfold member. destruct (nullish v); reflexivity. Qed.

Lemma response_data_silent (cannot_read : value -> string -> string)
    (query : nullable GraphQLResponse) :
  trace (response_data cannot_read query) = [].
Proof. destruct query; reflexivity. Qed.

(** The normalizer's outcome, by cases on the response. *)
Lemma normalizer_outcome (message : string) (response : nullable GraphQLResponse) :
  outcome (throwOnGraphQLErrors message response)
  = match response with
    | Defined r =>
        match error_list r with
        | [] => Return response
        | _ :: _ => Throw (CustomGraphQLError message (error_list r))
        end
    | Undefined | Null => Return response
    end.
Proof.
  destruct response as [| | r]; try reflexivity.
  unfold throwOnGraphQLErrors, maybeGraphQLResponse, error_list.
  destruct (errors r) as [| | [| x errs]]; reflexivity.
Qed.

(** A normalized and projected promise, when the projection has no effect of
    its own: one call, and an outcome decided in three steps. *)
Lemma normalized_run {B : Type}
    (settles : completion (nullable GraphQLResponse)) (call : list event)
    (message : string) (project : nullable GraphQLResponse -> Comp B) :
  (forall q, trace (project q) = []) ->
  bind (await (then_ (then_ (settles, call) (throwOnGraphQLErrors message)) project)) ret
  = (match settles with
     | Return response =>
         match outcome (throwOnGraphQLErrors message response) with
         | Return q => outcome (project q)
         | Throw e => Throw e
         end
     | Throw e => Throw e
     end, call).
Proof.
  intros Hsilent. unfold await, then_. rewrite bind_ret_r.
  destruct settles as [response | e]; [| reflexivity].
  unfold bind at 2.
  pose proof (normalizer_silent message response) as Hquiet.
  destruct (throwOnGraphQLErrors message response) as [[q | e] t];
    simpl in Hquiet; subst t; simpl; rewrite ?app_nil_r; [| reflexivity].
  specialize (Hsilent q).
  destruct (project q) as [c t]. simpl in Hsilent. subst t.
  now rewrite app_nil_r.
Qed.

Lemma getOrderFormItems_run
    (cannot_read : value -> string -> string) (GET_ORDERFORM_ITEMS_QUERY : string)
    (this : CheckoutIO) (orderFormId : string) :
  getOrderFormItems cannot_read GET_ORDERFORM_ITEMS_QUERY this orderFormId
  = (match graphql_query (graphql this)
             {| query := GET_ORDERFORM_ITEMS_QUERY;
                query_variables := VObj [("orderFormId", VStr orderFormId)] |}
             {| metric := "checkout-orderform" |} with
     | Throw e => Throw e
     | Return Undefined => Throw (TypeError (cannot_read VUndefined "data"))
     | Return Null => Throw (TypeError (cannot_read VNull "data"))
     | Return (Defined r) =>
         match error_list r with
         | _ :: _ =>
             Throw (CustomGraphQLError
                      "Error getting items data from vtex.checkout-graphql"
                      (error_list r))
         | [] =>
             if nullish (data r)
             then Throw (TypeError (cannot_read (data r) "orderForm"))
             else if nullish (get_prop (data r) "orderForm")
             then Throw (TypeError (cannot_read (get_prop (data r) "orderForm") "items"))
             else Return (get_prop (get_prop (data r) "orderForm") "items")
         end
     end,
     [GraphQLQuery GET_ORDERFORM_ITEMS_QUERY
        (VObj [("orderFormId", VStr orderFormId)]) "checkout-orderform"]).
Proof.
  unfold getOrderFormItems, call_query. rewrite normalized_run.
  - f_equal. destruct (graphql_query _ _ _) as [response | e]; [| reflexivity].
    rewrite normalizer_outcome.
    destruct response as [| | r]; try reflexivity.
    destruct (error_list r); [| reflexivity].
    unfold response_data, member. rewrite bind_ret, outcome_bind.
    destruct (nullish (data r)); [reflexivity |]. simpl.
    destruct (nullish (get_prop (data r) "orderForm")); reflexivity.
  - intros q. rewrite trace_bind, response_data_silent.
    destruct (outcome _); [| reflexivity].
    rewrite trace_bind, member_silent.
    destruct (outcome _); [apply member_silent | reflexivity].
Qed.

(** What follows the call in getOrderForm and in updateCart. *)
Lemma orderForm_outcome (cannot_read : value -> string -> string)
    (message : string) (settles : completion (nullable GraphQLResponse))
    (call : list event) :
  bind (await (then_ (then_ (settles, call) (throwOnGraphQLErrors message))
                 (fun query =>
                    d <- response_data cannot_read query ;;
                    member cannot_read d "orderForm")))
       ret
  = (match settles with
     | Throw e => Throw e
     | Return Undefined => Throw (TypeError (cannot_read VUndefined "data"))
     | Return Null => Throw (TypeError (cannot_read VNull "data"))
     | Return (Defined r) =>
         match error_list r with
         | _ :: _ => Throw (CustomGraphQLError message (error_list r))
         | [] =>
             if nullish (data r)
             then Throw (TypeError (cannot_read (data r) "orderForm"))
             else Return (get_prop (data r) "orderForm")
         end
     end, call).
Proof.
  rewrite normalized_run.
  - f_equal. destruct settles as [response | e]; [| reflexivity].
    rewrite normalizer_outcome.
    destruct response as [| | r]; try reflexivity.
    destruct (error_list r); [| reflexivity].
    unfold response_data, member. rewrite bind_ret.
    destruct (nullish (data r)); reflexivity.
  - intros q. rewrite trace_bind, response_data_silent.
    destruct (outcome _); [apply member_silent | reflexivity].
Qed.

(** X1: whatever the transport answers, each wrapper makes exactly one
    request and has no other effect: the items query and the order-form query
    under the metric "checkout-orderform" with the order form's id as only
    variable, the mutation under "checkout-update-items" with the id and the
    items. *)
Theorem wrappers_make_one_call
    (cannot_read : value -> string -> string)
    (GET_ORDERFORM_ITEMS_QUERY GET_ORDERFORM_QUERY UPDATE_CART_MUTATION : string)
    (this : CheckoutIO) (orderFormId : string) (items : list value) :
  trace (getOrderFormItems cannot_read GET_ORDERFORM_ITEMS_QUERY this orderFormId)
    = [GraphQLQuery GET_ORDERFORM_ITEMS_QUERY
         (VObj [("orderFormId", VStr orderFormId)]) "checkout-orderform"]
  /\ trace (getOrderForm cannot_read GET_ORDERFORM_QUERY this orderFormId)
     = [GraphQLQuery GET_ORDERFORM_QUERY
          (VObj [("orderFormId", VStr orderFormId)]) "checkout-orderform"]
  /\ trace (updateCart cannot_read UPDATE_CART_MUTATION this orderFormId items)
     = [GraphQLMutate UPDATE_CART_MUTATION
          (VObj [("orderFormId", VStr orderFormId); ("items", VArr items)])
          "checkout-update-items"].
Proof.
  split; [| split].
  - now rewrite getOrderFormItems_run.
  - unfold getOrderForm, call_query. now rewrite orderForm_outcome.
  - unfold updateCart, call_mutate. now rewrite orderForm_outcome.
Qed.

(** X2: when the transport rejects, each wrapper rejects with the very
    value the transport rejected with. *)
Theorem wrappers_pass_transport_rejection
    (cannot_read : value -> string -> string)
    (GET_ORDERFORM_ITEMS_QUERY GET_ORDERFORM_QUERY UPDATE_CART_MUTATION : string)
    (this : CheckoutIO) (orderFormId : string) (items : list value) (e : value) :
  (graphql_query (graphql this)
     {| query := GET_ORDERFORM_ITEMS_QUERY;
        query_variables := VObj [("orderFormId", VStr orderFormId)] |}
     {| metric := "checkout-orderform" |} = Throw e ->
   outcome (getOrderFormItems cannot_read GET_ORDERFORM_ITEMS_QUERY this orderFormId)
   = Throw e)
  /\ (graphql_query (graphql this)
        {| query := GET_ORDERFORM_QUERY;
           query_variables := VObj [("orderFormId", VStr orderFormId)] |}
        {| metric := "checkout-orderform" |} = Throw e ->
      outcome (getOrderForm cannot_read GET_ORDERFORM_QUERY this orderFormId)
      = Throw e)
  /\ (graphql_mutate (graphql this)
        {| mutate := UPDATE_CART_MUTATION;
           mutate_variables :=
             VObj [("orderFormId", VStr orderFormId); ("items", VArr items)] |}
        {| metric := "checkout-update-items" |} = Throw e ->
      outcome (updateCart cannot_read UPDATE_CART_MUTATION this orderFormId items)
      = Throw e).
Proof.
  split; [| split]; intros Hcall.
  - now rewrite getOrderFormItems_run, Hcall.
  - unfold getOrderForm, call_query. now rewrite orderForm_outcome, Hcall.
  - unfold updateCart, call_mutate. now rewrite orderForm_outcome, Hcall.
Qed.

(** X3: the two queries classify a response with errors as the mutation
    does, each under its own message: "Error getting items data from
    vtex.checkout-graphql" for the items, "Error getting data from
    vtex.checkout-graphql" for the order form. Each error reads back its
    message under [message] and the response's errors under [graphQLErrors]. *)
Theorem queries_reject_with_classified_error
    (cannot_read : value -> string -> string)
    (GET_ORDERFORM_ITEMS_QUERY GET_ORDERFORM_QUERY : string)
    (this : CheckoutIO) (orderFormId : string)
    (r : GraphQLResponse) (errs : list value) :
  errors r = Defined errs -> errs <> [] ->
  (graphql_query (graphql this)
     {| query := GET_ORDERFORM_ITEMS_QUERY;
        query_variables := VObj [("orderFormId", VStr orderFormId)] |}
     {| metric := "checkout-orderform" |} = Return (Defined r) ->
   outcome (getOrderFormItems cannot_read GET_ORDERFORM_ITEMS_QUERY this orderFormId)
   = Throw (CustomGraphQLError
              "Error getting items data from vtex.checkout-graphql" errs))
  /\ (graphql_query (graphql this)
        {| query := GET_ORDERFORM_QUERY;
           query_variables := VObj [("orderFormId", VStr orderFormId)] |}
        {| metric := "checkout-orderform" |} = Return (Defined r) ->
      outcome (getOrderForm cannot_read GET_ORDERFORM_QUERY this orderFormId)
      = Throw (CustomGraphQLError "Error getting data from vtex.checkout-graphql" errs))
  /\ (get_prop
        (CustomGraphQLError "Error getting items data from vtex.checkout-graphql" errs)
        "message"
      = VStr "Error getting items data from vtex.checkout-graphql"
      /\ get_prop
           (CustomGraphQLError "Error getting items data from vtex.checkout-graphql" errs)
           "graphQLErrors"
         = VArr errs)
  /\ (get_prop
        (CustomGraphQLError "Error getting data from vtex.checkout-graphql" errs)
        "message"
      = VStr "Error getting data from vtex.checkout-graphql"
      /\ get_prop
           (CustomGraphQLError "Error getting data from vtex.checkout-graphql" errs)
           "graphQLErrors"
         = VArr errs).
Proof.
  intros Herrs Hne.
  assert (exists x rest, error_list r = x :: rest /\ error_list r = errs)
    as (x & rest & Hcons & Hlist).
  { unfold error_list. rewrite Herrs. destruct errs as [| x rest]; [congruence |].
    now exists x, rest. }
  split; [| split; [| split; split; reflexivity]]; intros Hcall.
  - rewrite getOrderFormItems_run, Hcall. simpl. rewrite Hcons. congruence.
  - unfold getOrderForm, call_query. rewrite orderForm_outcome, Hcall. simpl.
    rewrite Hcons. congruence.
Qed.

(** X4: when the transport fulfils with [undefined] or [null] in place of a
    response, each wrapper rejects with the TypeError of reading [data] off
    it. *)
Theorem wrappers_fail_on_missing_response
    (cannot_read : value -> string -> string)
    (GET_ORDERFORM_ITEMS_QUERY GET_ORDERFORM_QUERY UPDATE_CART_MUTATION : string)
    (this : CheckoutIO) (orderFormId : string) (items : list value)
    (response : nullable GraphQLResponse) (base : value) :
  response = Undefined /\ base = VUndefined \/ response = Null /\ base = VNull ->
  (graphql_query (graphql this)
     {| query := GET_ORDERFORM_ITEMS_QUERY;
        query_variables := VObj [("orderFormId", VStr orderFormId)] |}
     {| metric := "checkout-orderform" |} = Return response ->
   outcome (getOrderFormItems cannot_read GET_ORDERFORM_ITEMS_QUERY this orderFormId)
   = Throw (TypeError (cannot_read base "data")))
  /\ (graphql_query (graphql this)
        {| query := GET_ORDERFORM_QUERY;
           query_variables := VObj [("orderFormId", VStr orderFormId)] |}
        {| metric := "checkout-orderform" |} = Return response ->
      outcome (getOrderForm cannot_read GET_ORDERFORM_QUERY this orderFormId)
      = Throw (TypeError (cannot_read base "data")))
  /\ (graphql_mutate (graphql this)
        {| mutate := UPDATE_CART_MUTATION;
           mutate_variables :=
             VObj [("orderFormId", VStr orderFormId); ("items", VArr items)] |}
        {| metric := "checkout-update-items" |} = Return response ->
      outcome (updateCart cannot_read UPDATE_CART_MUTATION this orderFormId items)
      = Throw (TypeError (cannot_read base "data"))).
Proof.
  intros Hmissing. split; [| split]; intros Hcall.
  - rewrite getOrderFormItems_run, Hcall.
    destruct Hmissing as [[-> ->] | [-> ->]]; reflexivity.
  - unfold getOrderForm, call_query. rewrite orderForm_outcome, Hcall.
    destruct Hmissing as [[-> ->] | [-> ->]]; reflexivity.
  - unfold updateCart, call_mutate. rewrite orderForm_outcome, Hcall.
    destruct Hmissing as [[-> ->] | [-> ->]]; reflexivity.
Qed.

Lemma orderForm_resolves (cannot_read : value -> string -> string)
    (message : string) (settles : completion (nullable GraphQLResponse))
    (call : list event) (v : value) :
  outcome
    (bind (await (then_ (then_ (settles, call) (throwOnGraphQLErrors message))
                    (fun query =>
                       d <- response_data cannot_read query ;;
                       member cannot_read d "orderForm")))
          ret) = Return v
  <-> exists r,
        settles = Return (Defined r) /\ error_list r = []
        /\ nullish (data r) = false /\ v = get_prop (data r) "orderForm".
Proof.
  rewrite orderForm_outcome. unfold outcome, fst. split.
  - destruct settles as [[| | r] | e]; try discriminate.
    destruct (error_list r) eqn:Hlist; try discriminate.
    destruct (nullish (data r)) eqn:Hdata; try discriminate.
    intros [= <-]. now exists r.
  - intros (r & -> & -> & -> & ->). reflexivity.
Qed.

(** X5: getOrderForm resolves, and then to [data.orderForm], exactly when
    the transport fulfils with a response that has no errors and whose [data]
    is neither [undefined] nor [null]. The value is not inspected: a [data]
    without [orderForm] resolves to [undefined]. *)
Theorem getOrderForm_resolves_iff
    (cannot_read : value -> string -> string) (GET_ORDERFORM_QUERY : string)
    (this : CheckoutIO) (orderFormId : string) (v : value) :
  outcome (getOrderForm cannot_read GET_ORDERFORM_QUERY this orderFormId) = Return v
  <-> exists r,
        graphql_query (graphql this)
          {| query := GET_ORDERFORM_QUERY;
             query_variables := VObj [("orderFormId", VStr orderFormId)] |}
          {| metric := "checkout-orderform" |} = Return (Defined r)
        /\ error_list r = []
        /\ nullish (data r) = false
        /\ v = get_prop (data r) "orderForm".
Proof.
  unfold getOrderForm, call_query. apply orderForm_resolves.
Qed.

(** X6: updateCart resolves, and then to the [data.orderForm] of the
    mutation's response, exactly when that response has no errors and its
    [data] is neither [undefined] nor [null]. *)
Theorem updateCart_resolves_iff
    (cannot_read : value -> string -> string) (UPDATE_CART_MUTATION : string)
    (this : CheckoutIO) (orderFormId : string) (items : list value) (v : value) :
  outcome (updateCart cannot_read UPDATE_CART_MUTATION this orderFormId items)
    = Return v
  <-> exists r,
        graphql_mutate (graphql this)
          {| mutate := UPDATE_CART_MUTATION;
             mutate_variables :=
               VObj [("orderFormId", VStr orderFormId); ("items", VArr items)] |}
          {| metric := "checkout-update-items" |} = Return (Defined r)
        /\ error_list r = []
        /\ nullish (data r) = false
        /\ v = get_prop (data r) "orderForm".
Proof.
  unfold updateCart, call_mutate. apply orderForm_resolves.
Qed.

(** X7: getOrderFormItems resolves, and then to [data.orderForm.items],
    exactly when the response has no errors and neither its [data] nor its
    [data.orderForm] is [undefined] or [null]. *)
Theorem getOrderFormItems_resolves_iff
    (cannot_read : value -> string -> string) (GET_ORDERFORM_ITEMS_QUERY : string)
    (this : CheckoutIO) (orderFormId : string) (v : value) :
  outcome (getOrderFormItems cannot_read GET_ORDERFORM_ITEMS_QUERY this orderFormId)
    = Return v
  <-> exists r,
        graphql_query (graphql this)
          {| query := GET_ORDERFORM_ITEMS_QUERY;
             query_variables := VObj [("orderFormId", VStr orderFormId)] |}
          {| metric := "checkout-orderform" |} = Return (Defined r)
        /\ error_list r = []
        /\ nullish (data r) = false
        /\ nullish (get_prop (data r) "orderForm") = false
        /\ v = get_prop (get_prop (data r) "orderForm") "items".
Proof.
  rewrite getOrderFormItems_run. unfold outcome, fst. split.
  - destruct (graphql_query _ _ _) as [[| | r] | e]; try discriminate.
    destruct (error_list r) eqn:Hlist; try discriminate.
    destruct (nullish (data r)) eqn:Hdata; try discriminate.
    destruct (nullish (get_prop (data r) "orderForm")) eqn:Hform; try discriminate.
    intros [= <-]. now exists r.
  - intros (r & -> & -> & -> & -> & ->). reflexivity.
Qed.

(** X8: a response without errors whose [data] lacks [orderForm] makes
    getOrderFormItems reject with the TypeError of reading [items] off the
    missing order form. *)
Theorem getOrderFormItems_fails_on_missing_orderForm
    (cannot_read : value -> string -> string) (GET_ORDERFORM_ITEMS_QUERY : string)
    (this : CheckoutIO) (orderFormId : string) (r : GraphQLResponse) :
  graphql_query (graphql this)
    {| query := GET_ORDERFORM_ITEMS_QUERY;
       query_variables := VObj [("orderFormId", VStr orderFormId)] |}
    {| metric := "checkout-orderform" |} = Return (Defined r) ->
  error_list r = [] ->
  nullish (data r) = false ->
  nullish (get_prop (data r) "orderForm") = true ->
  outcome (getOrderFormItems cannot_read GET_ORDERFORM_ITEMS_QUERY this orderFormId)
  = Throw (TypeError (cannot_read (get_prop (data r) "orderForm") "items")).
Proof.
  intros Hcall Hlist Hdata Hform.
  now rewrite getOrderFormItems_run, Hcall, Hlist, Hdata, Hform.
Qed.

(** X9: a wrapper rejects in three ways only: with the transport's own
    rejection, with a TypeError of a failed read, or with a
    CustomGraphQLError that carries the wrapper's message and a non-empty
    list of causes. Shown for getOrderFormItems, whose projection is the
    longest. *)
Theorem getOrderFormItems_rejections
    (cannot_read : value -> string -> string) (GET_ORDERFORM_ITEMS_QUERY : string)
    (this : CheckoutIO) (orderFormId : string) (e : value) :
  outcome (getOrderFormItems cannot_read GET_ORDERFORM_ITEMS_QUERY this orderFormId)
    = Throw e ->
  graphql_query (graphql this)
    {| query := GET_ORDERFORM_ITEMS_QUERY;
       query_variables := VObj [("orderFormId", VStr orderFormId)] |}
    {| metric := "checkout-orderform" |} = Throw e
  \/ is_TypeError e = true
  \/ exists errs,
       errs <> []
       /\ e = CustomGraphQLError
                "Error getting items data from vtex.checkout-graphql" errs.
Proof.
  rewrite getOrderFormItems_run. unfold outcome, fst.
  destruct (graphql_query _ _ _) as [[| | r] | e'].
  - intros [= <-]. right; left; reflexivity.
  - intros [= <-]. right; left; reflexivity.
  - destruct (error_list r) as [| x rest].
    + destruct (nullish (data r)); [intros [= <-]; right; left; reflexivity |].
      destruct (nullish (get_prop (data r) "orderForm")); [| discriminate].
      intros [= <-]. right; left; reflexivity.
    + intros [= <-]. right; right. exists (x :: rest). split; [discriminate | reflexivity].
  - intros [= <-]. left; reflexivity.
Qed.

(* ===================================================================== *)
(** ** The store lookup, outcome by outcome *)
(* ===================================================================== *)

(** X10: whatever the store answers, getXCart logs, makes exactly one lookup
    (bucket "vtex.cross-device-cart", the userId as key, [true]) and logs
    once more: there is no second lookup on any path. *)
Theorem getXCart_makes_one_lookup
    (root : value) (userId : string) (ctx : Context) :
  exists last,
    trace (getXCart root userId ctx)
    = [ConsoleLog [VStr "-----------------NODE DEBUG-----------------------"];
       VBaseGetJSON "vtex.cross-device-cart" userId true;
       ConsoleLog last].
Proof.
  rewrite getXCart_run.
  destruct (getJSON _ _ _ _) as [v | err]; eexists; reflexivity.
Qed.

(** X11: getXCart resolves to [null] in two cases only: the store delivered
    [null] itself, or the store rejected with an error whose embedded status
    is strictly equal to 404. *)
Theorem getXCart_null_iff
    (root : value) (userId : string) (ctx : Context) :
  outcome (getXCart root userId ctx) = Return VNull
  <-> getJSON (vbase (clients ctx)) "vtex.cross-device-cart" userId true
        = Return VNull
      \/ exists err,
           getJSON (vbase (clients ctx)) "vtex.cross-device-cart" userId true
             = Throw err
           /\ strict_equals_number (embedded_status err) 404%float = true.
Proof.
  rewrite getXCart_run. unfold outcome.
  destruct (getJSON _ _ _ _) as [v | err]; simpl; split.
  - intros [= ->]. now left.
  - intros [[= ->] | (err & [=] & _)]. reflexivity.
  - destruct (strict_equals_number _ _) eqn:Hstatus; [| discriminate].
    intros _. right. now exists err.
  - intros [[=] | (err' & [= <-] & ->)]. reflexivity.
Qed.

(** X12: getXCart rejects with [e] exactly when the store rejected with [e]
    and the embedded status of [e] is not strictly equal to 404: it never
    rejects with an error of its own. *)
Theorem getXCart_rejects_iff
    (root : value) (userId : string) (ctx : Context) (e : value) :
  outcome (getXCart root userId ctx) = Throw e
  <-> getJSON (vbase (clients ctx)) "vtex.cross-device-cart" userId true = Throw e
      /\ strict_equals_number (embedded_status e) 404%float = false.
Proof.
  rewrite getXCart_run. unfold outcome.
  destruct (getJSON _ _ _ _) as [v | err]; simpl; split.
  - discriminate.
  - intros [[=] _].
  - destruct (strict_equals_number _ _) eqn:Hstatus; [discriminate |].
    intros [= <-]. now split.
  - intros [[= <-] ->]. reflexivity.
Qed.

Lemma not_an_index {A : Type} (key : string) (xs : list A) :
  (forall i, String.eqb key (index_key i) = false) ->
  forall i, indexed xs i key = None.
Proof.
  intros Hkey. induction xs as [| x rest IH]; intros i; simpl; [reflexivity |].
  now rewrite Hkey.
Qed.

Lemma response_not_index (i : nat) : String.eqb "response" (index_key i) = false.
Proof.
  unfold index_key, NilZero.string_of_uint. destruct (Nat.to_uint i); reflexivity.
Qed.

Lemma status_not_index (i : nat) : String.eqb "status" (index_key i) = false.
Proof.
  unfold index_key, NilZero.string_of_uint. destruct (Nat.to_uint i); reflexivity.
Qed.

(** Reading [response] or [status] off any value finds an own property of an
    object or of an error instance, or nothing. *)
Lemma optional_member_response (v : value) :
  optional_member v "response" = or_undefined (own_property v "response").
Proof.
  destruct v as [| | b | x | s | elems | props | cls props];
    unfold optional_member; simpl; try reflexivity.
  - now rewrite (not_an_index "response" _ response_not_index).
  - now rewrite (not_an_index "response" _ response_not_index).
Qed.

Lemma optional_member_status (v : value) :
  optional_member v "status" = or_undefined (own_property v "status").
Proof.
  destruct v as [| | b | x | s | elems | props | cls props];
    unfold optional_member; simpl; try reflexivity.
  - now rewrite (not_an_index "status" _ status_not_index).
  - now rewrite (not_an_index "status" _ status_not_index).
Qed.

(** X13: a rejection of the store is taken for "not found" exactly when the
    error is an object (or an error instance) with an own [response] that is
    itself an object with an own [status] that is a number equal to 404. A
    thrown string, number, boolean, array, [null] or [undefined], and an
    error without such a [response], are rethrown. *)
Theorem getXCart_absence_shape
    (root : value) (userId : string) (ctx : Context) (err : value) :
  getJSON (vbase (clients ctx)) "vtex.cross-device-cart" userId true = Throw err ->
  (outcome (getXCart root userId ctx) = Return VNull
   <-> exists response x,
         own_property err "response" = Some response
         /\ own_property response "status" = Some (VNum x)
         /\ PrimFloat.eqb x 404%float = true).
Proof.
  intros Hcall. rewrite getXCart_run, Hcall. unfold outcome, fst, embedded_status.
  rewrite optional_member_status, optional_member_response.
  split.
  - destruct (own_property err "response") as [response |]; simpl; [| discriminate].
    destruct (own_property response "status")
      as [[| | b | x | s | l | p | c p] |] eqn:Hstatus;
      simpl; try discriminate.
    destruct (PrimFloat.eqb x 404%float) eqn:Hx; [| discriminate].
    intros _. now exists response, x.
  - intros (response & x & -> & Hstatus & Hx). simpl.
    rewrite Hstatus. simpl. now rewrite Hx.
Qed.

(* ===================================================================== *)
(** ** The options the constructor hands to the base client *)
(* ===================================================================== *)

Lemma assoc_set_prop_same (key : string) (v : value) (props : list (string * value)) :
  assoc key (set_prop key v props) = Some v.
Proof.
  induction props as [| [k x] rest IH]; simpl.
  - now rewrite String.eqb_refl.
  - destruct (String.eqb k key) eqn:Hk; simpl; now rewrite Hk.
Qed.

Lemma assoc_set_prop_other (key key' : string) (v : value)
    (props : list (string * value)) :
  key' <> key ->
  assoc key' (set_prop key v props) = assoc key' props.
Proof.
  intros Hne. induction props as [| [k x] rest IH]; simpl.
  - destruct (String.eqb_spec key key'); [congruence | reflexivity].
  - destruct (String.eqb_spec k key) as [-> | Hk]; simpl.
    + destruct (String.eqb_spec key key'); [congruence | reflexivity].
    + destruct (String.eqb k key'); [reflexivity | exact IH].
Qed.

Lemma set_prop_twice (key : string) (v w : value) (props : list (string * value)) :
  set_prop key w (set_prop key v props) = set_prop key w props.
Proof.
  induction props as [| [k x] rest IH]; simpl.
  - now rewrite String.eqb_refl.
  - destruct (String.eqb k key) eqn:Hk; simpl; rewrite Hk; [reflexivity |].
    now rewrite IH.
Qed.

(** X14: the options handed to the base client have the empty object as
    [headers] when [options] is omitted or has no [headers] ([undefined] or
    [null]), and an object with the same entries when [options.headers] is a
    plain object. *)
Theorem CheckoutIO_constructor_headers (context options : value) :
  (nullish (optional_member options "headers") = true ->
   get_prop (super_options (CheckoutIO_constructor context options)) "headers"
   = VObj [])
  /\ (forall entries,
        optional_member options "headers" = VObj entries ->
        get_prop (super_options (CheckoutIO_constructor context options)) "headers"
        = VObj entries).
Proof.
  assert (get_prop (super_options (CheckoutIO_constructor context options)) "headers"
          = VObj (own_enumerable (optional_member options "headers"))) as Hheaders.
  { simpl. now rewrite assoc_set_prop_same. }
  rewrite Hheaders. split.
  - destruct (optional_member options "headers"); try discriminate; reflexivity.
  - now intros entries ->.
Qed.

(** X15: the constructor names the app "vtex.checkout-graphql@0.x", hands
    the context on as it is, and hands on every option other than [headers]
    with the value it had. *)
Theorem CheckoutIO_constructor_keeps_options
    (context : value) (props : list (string * value)) (key : string) :
  key <> "headers" ->
  super_app (CheckoutIO_constructor context (VObj props)) = "vtex.checkout-graphql@0.x"
  /\ super_context (CheckoutIO_constructor context (VObj props)) = context
  /\ get_prop (super_options (CheckoutIO_constructor context (VObj props))) key
     = get_prop (VObj props) key.
Proof.
  intros Hkey. repeat split. simpl.
  now rewrite (assoc_set_prop_other "headers" key _ props Hkey).
Qed.

(** X16: options that came out of the constructor pass through it
    unchanged: building the options a second time changes nothing. *)
Theorem CheckoutIO_constructor_options_idempotent (c1 c2 options : value) :
  super_options
    (CheckoutIO_constructor c1 (super_options (CheckoutIO_constructor c2 options)))
  = super_options (CheckoutIO_constructor c2 options).
Proof.
  unfold CheckoutIO_constructor, optional_member at 1. simpl.
  rewrite assoc_set_prop_same. simpl. now rewrite set_prop_twice.
Qed.

(* ===================================================================== *)
(** ** These properties at the scenarios *)
(* ===================================================================== *)

Lemma wrappers_pass_transport_rejection_witness :
  outcome (getOrderFormItems v8_cannot_read items_query
             (transport (Throw (VStr "ECONNRESET"))) "of-1")
    = Throw (VStr "ECONNRESET")
  /\ outcome (getOrderForm v8_cannot_read orderform_query
                (transport (Throw (VStr "ECONNRESET"))) "of-1")
     = Throw (VStr "ECONNRESET")
  /\ outcome (updateCart v8_cannot_read update_mutation
                (transport (Throw (VStr "ECONNRESET"))) "of-1" sku1_twice)
     = Throw (VStr "ECONNRESET").
Proof.
  destruct (wrappers_pass_transport_rejection v8_cannot_read
              items_query orderform_query update_mutation
              (transport (Throw (VStr "ECONNRESET"))) "of-1" sku1_twice
              (VStr "ECONNRESET"))
    as (Hitems & Hform & Hupdate).
  split; [apply Hitems | split; [apply Hform | apply Hupdate]]; reflexivity.
Defined.

Lemma queries_reject_with_classified_error_witness :
  outcome (getOrderFormItems v8_cannot_read items_query
             (transport (Return (Defined partial_response))) "of-1")
    = Throw (CustomGraphQLError "Error getting items data from vtex.checkout-graphql"
               [VObj [("message", VStr "out of stock")]])
  /\ outcome (getOrderForm v8_cannot_read orderform_query
                (transport (Return (Defined partial_response))) "of-1")
     = Throw (CustomGraphQLError "Error getting data from vtex.checkout-graphql"
                [VObj [("message", VStr "out of stock")]])
  /\ get_prop
       (CustomGraphQLError "Error getting items data from vtex.checkout-graphql"
          [VObj [("message", VStr "out of stock")]])
       "message"
     = VStr "Error getting items data from vtex.checkout-graphql"
  /\ get_prop
       (CustomGraphQLError "Error getting data from vtex.checkout-graphql"
          [VObj [("message", VStr "out of stock")]])
       "graphQLErrors"
     = VArr [VObj [("message", VStr "out of stock")]].
Proof.
  destruct (queries_reject_with_classified_error v8_cannot_read
              items_query orderform_query
              (transport (Return (Defined partial_response))) "of-1"
              partial_response [VObj [("message", VStr "out of stock")]]
              eq_refl ltac:(discriminate))
    as (Hitems & Hform & (Hmessage & _) & (_ & Hcauses)).
  split; [apply Hitems | split; [apply Hform | split]];
    solve [reflexivity | exact Hmessage | exact Hcauses].
Defined.

Lemma wrappers_fail_on_missing_response_witness :
  outcome (getOrderFormItems v8_cannot_read items_query
             (transport (Return Null)) "of-1")
    = Throw (TypeError "Cannot read properties of null (reading 'data')")
  /\ outcome (getOrderForm v8_cannot_read orderform_query
                (transport (Return Null)) "of-1")
     = Throw (TypeError "Cannot read properties of null (reading 'data')")
  /\ outcome (updateCart v8_cannot_read update_mutation
                (transport (Return Null)) "of-1" sku1_twice)
     = Throw (TypeError "Cannot read properties of null (reading 'data')").
Proof.
  destruct (wrappers_fail_on_missing_response v8_cannot_read
              items_query orderform_query update_mutation
              (transport (Return Null)) "of-1" sku1_twice Null VNull
              (or_intror (conj eq_refl eq_refl)))
    as (Hitems & Hform & Hupdate).
  split; [apply Hitems | split; [apply Hform | apply Hupdate]]; reflexivity.
Defined.

Lemma getOrderForm_resolves_iff_witness :
  outcome (getOrderForm v8_cannot_read orderform_query
             (transport (Return (Defined formless_response))) "of-1")
  = Return VUndefined.
Proof.
  apply (proj2 (getOrderForm_resolves_iff v8_cannot_read orderform_query
                  (transport (Return (Defined formless_response))) "of-1"
                  VUndefined)).
  exists formless_response. repeat split.
Defined.

Lemma updateCart_resolves_iff_witness :
  outcome (updateCart v8_cannot_read update_mutation
             (transport (Return (Defined items_response))) "of-1" sku1_twice)
  = Return (VObj [("items", VArr [VObj [("id", VStr "sku1")]])]).
Proof.
  apply (proj2 (updateCart_resolves_iff v8_cannot_read update_mutation
                  (transport (Return (Defined items_response))) "of-1" sku1_twice
                  (VObj [("items", VArr [VObj [("id", VStr "sku1")]])]))).
  exists items_response. repeat split.
Defined.

Lemma getOrderFormItems_resolves_iff_witness :
  outcome (getOrderFormItems v8_cannot_read items_query
             (transport (Return (Defined items_response))) "of-1")
  = Return (VArr [VObj [("id", VStr "sku1")]]).
Proof.
  apply (proj2 (getOrderFormItems_resolves_iff v8_cannot_read items_query
                  (transport (Return (Defined items_response))) "of-1"
                  (VArr [VObj [("id", VStr "sku1")]]))).
  exists items_response. repeat split.
Defined.

Lemma getOrderFormItems_fails_on_missing_orderForm_witness :
  outcome (getOrderFormItems v8_cannot_read items_query
             (transport (Return (Defined formless_response))) "of-1")
  = Throw (TypeError "Cannot read properties of undefined (reading 'items')").
Proof.
  apply (getOrderFormItems_fails_on_missing_orderForm v8_cannot_read items_query
           (transport (Return (Defined formless_response))) "of-1"
           formless_response);
    reflexivity.
Defined.

Lemma getOrderFormItems_rejections_witness :
  graphql_query (graphql (transport (Return (Defined formless_response))))
    {| query := items_query;
       query_variables := VObj [("orderFormId", VStr "of-1")] |}
    {| metric := "checkout-orderform" |}
    = Throw (TypeError "Cannot read properties of undefined (reading 'items')")
  \/ is_TypeError (TypeError "Cannot read properties of undefined (reading 'items')")
     = true
  \/ exists errs,
       errs <> []
       /\ TypeError "Cannot read properties of undefined (reading 'items')"
          = CustomGraphQLError
              "Error getting items data from vtex.checkout-graphql" errs.
Proof.
  apply (getOrderFormItems_rejections v8_cannot_read items_query
           (transport (Return (Defined formless_response))) "of-1").
  reflexivity.
Defined.

Lemma getXCart_absence_shape_witness :
  outcome (getXCart VUndefined "user-42" (store (Throw (status_error 404))))
  = Return VNull.
Proof.
  apply (proj2 (getXCart_absence_shape VUndefined "user-42"
                  (store (Throw (status_error 404))) (status_error 404) eq_refl)).
  exists (VObj [("status", VNum 404%float)]), 404%float. repeat split.
Defined.

Lemma CheckoutIO_constructor_keeps_options_witness :
  super_app (CheckoutIO_constructor VNull custom_options) = "vtex.checkout-graphql@0.x"
  /\ super_context (CheckoutIO_constructor VNull custom_options) = VNull
  /\ get_prop (super_options (CheckoutIO_constructor VNull custom_options)) "timeout"
     = VNum 800%float.
Proof.
  apply (CheckoutIO_constructor_keeps_options VNull
           [("timeout", VNum 800%float);
            ("headers", VObj [("x-vtex-use-https", VStr "true")])]
           "timeout").
  discriminate.
Defined.

Lemma CheckoutIO_constructor_headers_witness :
  get_prop (super_options (CheckoutIO_constructor VNull VUndefined)) "headers"
    = VObj []
  /\ get_prop (super_options (CheckoutIO_constructor VNull custom_options)) "headers"
     = VObj [("x-vtex-use-https", VStr "true")].
Proof.
  split.
  - apply (proj1 (CheckoutIO_constructor_headers VNull VUndefined)). reflexivity.
  - apply (proj2 (CheckoutIO_constructor_headers VNull custom_options)). reflexivity.
Defined.

(** The constructor without options, and with headers to copy. *)
Example CheckoutIO_constructor_runs :
  super_options (CheckoutIO_constructor VNull VUndefined) = VObj [("headers", VObj [])]
  /\ super_options (CheckoutIO_constructor VNull custom_options) = custom_options.
Proof. split; reflexivity. Qed.
